(** * Log-record correlation for [ddtrace.contrib.logging]

    A shallow embedding of [ddtrace/contrib/logging/patch.py]: the hook
    [_w_makeRecord] wrapped around [logging.Logger.makeRecord], the helper
    [_inject_or_default], and the [patch] / [unpatch] lifecycle.

    Python objects live in a heap of attribute dictionaries, so that the
    identity of the record returned by the hook can be stated.  Exceptions
    and the mutable world are threaded through a small state-and-error
    monad [M]. *)

From Stdlib Require Import ZArith.
From stdpp Require Import base option gmap strings list fin_maps.

Set Default Proof Using "Type".

Local Open Scope Z_scope.
Local Open Scope string_scope.
Local Open Scope list_scope.

(** ** Python values *)

(** The dynamically typed values that reach a record attribute. *)
Inductive pyval : Type :=
  | PyNone
  | PyBool (b : bool)
  | PyInt (z : Z)
  | PyStr (s : string).

#[global] Instance pyval_eq_dec : EqDecision pyval.
Proof. solve_decision. Defined.

(** Python truth value testing: [None], [False], [0] and [""] are falsy. *)
Definition truthy (v : pyval) : bool :=
  match v with
  | PyNone => false
  | PyBool b => b
  | PyInt z => negb (z =? 0)%Z
  | PyStr s => negb (String.eqb s "")
  end.

(** An optional string ([str] or [None]) seen as a Python value. *)
Definition of_optional (o : option string) : pyval :=
  match o with
  | Some s => PyStr s
  | None => PyNone
  end.

(** ** Module constants of [patch.py] *)

Definition RECORD_ATTR_ENV : string := "dd.env".
Definition RECORD_ATTR_VERSION : string := "dd.version".
Definition RECORD_ATTR_TRACE_ID : string := "dd.trace_id".
Definition RECORD_ATTR_SPAN_ID : string := "dd.span_id".
Definition RECORD_ATTR_VALUE_ZERO : pyval := PyInt 0.
Definition RECORD_ATTR_VALUE_EMPTY : pyval := PyStr "".

(** The four attribute names the hook may write. *)
Definition correlation_attrs : list string :=
  [RECORD_ATTR_VERSION; RECORD_ATTR_ENV; RECORD_ATTR_TRACE_ID; RECORD_ATTR_SPAN_ID].

(** ** Collaborators: span, tracer, configuration *)

(** Modelled from the spec: the [Span] class is not part of the sources.
    A span exposes a trace identifier, a span identifier and a tag mapping
    from string keys to string values. *)
Record Span : Type := {
  trace_id : Z;
  span_id : Z;
  meta : gmap string string;
}.

(** Modelled from the spec: [Span.get_tag] is not part of the sources.
    It answers the value stored under [key] in the tag mapping, or [None]. *)
Definition get_tag (span : Span) (key : string) : pyval :=
  of_optional (meta span !! key).

(** Outcome of a call that may raise. *)
Inductive exn : Type := Exception (msg : string).

Inductive result (A : Type) : Type :=
  | Ok (a : A)
  | Raise (e : exn).
Arguments Ok {A} a.
Arguments Raise {A} e.

(** A tracer is observed through what [current_span()] answers: a span,
    [None], or an exception. *)
Record Tracer : Type := {
  current_span : result (option Span);
}.

(** [ddtrace.config.logging], registered by
    [ddtrace.config._add("logging", dict(tracer=None))]. *)
Record IntegrationConfig : Type := {
  ic_tracer : option Tracer;
}.

(** [ddtrace.config]. *)
Record Config : Type := {
  cfg_env : option string;
  cfg_version : option string;
  cfg_logging : IntegrationConfig;
}.

(** The globals of the [ddtrace] module the hook reads. *)
Record Ddtrace : Type := {
  dd_config : Config;
  dd_tracer : Tracer;
}.

(** ** The world: heap of objects, module globals, observable trace *)

Definition loc : Type := positive.

(** Positional and keyword arguments forwarded to the wrapped function. *)
Record CallArgs : Type := {
  args : list pyval;
  kwargs : list (string * pyval);
}.

Inductive event : Type :=
  | EvOriginal (a : CallArgs)
  | EvCurrentSpan
  | EvSetattr (record : loc) (key : string) (value : pyval).

Record world : Type := {
  heap : gmap loc (gmap string pyval);
  ddtrace : Ddtrace;
  trace : list event;
}.

(** Attribute lookup [getattr(obj, key)] on the heap; [None] when the
    attribute (or the object) does not exist. *)
Definition getattr (h : gmap loc (gmap string pyval)) (obj : loc) (key : string)
  : option pyval :=
  h !! obj ≫= (.!! key).

(** ** The state-and-error monad *)

Definition M (A : Type) : Type := world → result A * world.

#[global] Instance M_ret : MRet M := λ A a w, (Ok a, w).

#[global] Instance M_bind : MBind M := λ A B k m w,
  match m w with
  | (Ok a, w') => k a w'
  | (Raise e, w') => (Raise e, w')
  end.

Definition raise {A} (e : exn) : M A := λ w, (Raise e, w).

Definition gets {A} (f : world → A) : M A := λ w, (Ok (f w), w).

Definition log (ev : event) : M unit :=
  λ w, (Ok tt, {| heap := heap w; ddtrace := ddtrace w; trace := trace w ++ [ev] |}).

(** A computation that only works on the heap of objects. *)
Definition on_heap {A}
    (f : gmap loc (gmap string pyval) → result A * gmap loc (gmap string pyval))
  : M A :=
  λ w, let (r, h) := f (heap w) in
       (r, {| heap := h; ddtrace := ddtrace w; trace := trace w |}).

(** [setattr(record, key, value)]: in-place update of the attribute
    dictionary of the object at [record].  A Python reference is always
    live; the statements below assume it of the record the wrapped function
    answers ([is_Some (heap w !! record)]). *)
Definition setattr (record : loc) (key : string) (value : pyval) : M unit :=
  λ w, (Ok tt, {| heap := alter (insert key value) record (heap w);
                  ddtrace := ddtrace w;
                  trace := trace w ++ [EvSetattr record key value] |}).

(** [tracer.current_span()]. *)
Definition call_current_span (tracer : Tracer) : M (option Span) :=
  log EvCurrentSpan;;
  match current_span tracer with
  | Ok span => mret span
  | Raise e => raise e
  end.

(** ** [patch.py] *)

Section Hook.

(** [ddtrace.constants] is not part of the sources: the tag keys it
    exports are parameters of the development. *)
Variables VERSION_KEY ENV_KEY : string.

(** The secondary version key, [SERVICE_VERSION_KEY] of [ddtrace.constants]. *)
Variable SERVICE_VERSION_KEY : string.

(** Modelled from the spec: [Span.set_tag] is not part of the sources.
    A tag is a string key-value pair attached to a span.  The secondary
    service-version key is recognized as a version tag: tagging under it
    also records the value as the version tag, which is how the tests that
    tag a span with [SERVICE_VERSION_KEY] alone read the value back as
    [dd.version]. *)
Definition set_tag (key value : string) (span : Span) : Span :=
  let tags :=
    if decide (key = SERVICE_VERSION_KEY)
    then <[VERSION_KEY := value]> (meta span)
    else meta span in
  {| trace_id := trace_id span; span_id := span_id span;
     meta := <[key := value]> tags |}.

Definition _inject_or_default (record : loc) (key : string) (value : pyval)
    (default : pyval) : M unit :=
  let value := if negb (truthy value) then default else value in
  setattr record key value.

Definition _w_makeRecord (func : CallArgs → M loc) (a : CallArgs) : M loc :=
  record ← func a;
  cfg_tracer ← gets (λ w, ic_tracer (cfg_logging (dd_config (ddtrace w))));
  default_tracer ← gets (λ w, dd_tracer (ddtrace w));
  let tracer := match cfg_tracer with Some t => t | None => default_tracer end in
  span ← call_current_span tracer;
  version ← gets (λ w, of_optional (cfg_version (dd_config (ddtrace w))));
  let version :=
    match span with
    | Some sp => if bool_decide (is_Some (meta sp !! VERSION_KEY))
                 then get_tag sp VERSION_KEY else version
    | None => version
    end in
  _inject_or_default record RECORD_ATTR_VERSION version RECORD_ATTR_VALUE_EMPTY;;
  env ← gets (λ w, of_optional (cfg_env (dd_config (ddtrace w))));
  let env :=
    match span with
    | Some sp => if bool_decide (is_Some (meta sp !! ENV_KEY))
                 then get_tag sp ENV_KEY else env
    | None => env
    end in
  _inject_or_default record RECORD_ATTR_ENV env RECORD_ATTR_VALUE_EMPTY;;
  let no_identifiers : M loc :=
    setattr record RECORD_ATTR_TRACE_ID RECORD_ATTR_VALUE_ZERO;;
    setattr record RECORD_ATTR_SPAN_ID RECORD_ATTR_VALUE_ZERO;;
    mret record in
  match span with
  | Some sp =>
      if truthy (PyInt (trace_id sp)) && truthy (PyInt (span_id sp)) then
        setattr record RECORD_ATTR_TRACE_ID (PyInt (trace_id sp));;
        setattr record RECORD_ATTR_SPAN_ID (PyInt (span_id sp));;
        mret record
      else no_identifiers
  | None => no_identifiers
  end.

(** *** Installing and removing the hook *)

(** What [logging.Logger.makeRecord] is bound to: the framework's own
    function, or a [wrapt] function wrapper around a previous binding. *)
Inductive callable : Type :=
  | Original
  | FunctionWrapper (wrapped : callable)
      (wrapper : (CallArgs → M loc) → CallArgs → M loc).

(** The part of the [logging] module that [patch] and [unpatch] touch.
    The attribute [_datadog_patch] does not exist before the first
    [patch]. *)
Record LoggingModule : Type := {
  _datadog_patch : option bool;
  Logger_makeRecord : callable;
}.

(** [getattr(logging, "_datadog_patch", False)]. *)
Definition getattr_datadog_patch (logging : LoggingModule) : bool :=
  default false (_datadog_patch logging).

(** [setattr(logging, "_datadog_patch", b)]. *)
Definition setattr_datadog_patch (b : bool) (logging : LoggingModule)
  : LoggingModule :=
  {| _datadog_patch := Some b; Logger_makeRecord := Logger_makeRecord logging |}.

(** Modelled from the spec: [wrapt.wrap_function_wrapper] is not part of
    the sources.  It installs a wrapper around the record-construction
    entry point: the attribute is rebound to a function wrapper holding
    the previous binding. *)
Definition _w (wrapper : (CallArgs → M loc) → CallArgs → M loc)
    (logging : LoggingModule) : LoggingModule :=
  {| _datadog_patch := _datadog_patch logging;
     Logger_makeRecord := FunctionWrapper (Logger_makeRecord logging) wrapper |}.

(** Modelled from the spec: [ddtrace.utils.wrappers.unwrap] is not part
    of the sources.  It removes the wrapper, restoring the entry point it
    wrapped; a binding that is not a wrapper is left alone. *)
Definition _u (logging : LoggingModule) : LoggingModule :=
  match Logger_makeRecord logging with
  | FunctionWrapper wrapped _ =>
      {| _datadog_patch := _datadog_patch logging; Logger_makeRecord := wrapped |}
  | Original => logging
  end.

Definition patch (logging : LoggingModule) : LoggingModule :=
  if getattr_datadog_patch logging then logging
  else _w _w_makeRecord (setattr_datadog_patch true logging).

Definition unpatch (logging : LoggingModule) : LoggingModule :=
  if getattr_datadog_patch logging then _u (setattr_datadog_patch false logging)
  else logging.

(** *** Creating a record through the current binding *)

(** The logging framework's own [Logger.makeRecord]: it works on the heap
    of objects and answers the new record, or raises. *)
Variable makeRecord :
  CallArgs → gmap loc (gmap string pyval) → result loc * gmap loc (gmap string pyval).

Definition call_original (a : CallArgs) : M loc :=
  log (EvOriginal a);;
  on_heap (makeRecord a).

(** Calling a binding: a function wrapper passes the wrapped callable to
    its wrapper function. *)
Fixpoint call (c : callable) (a : CallArgs) : M loc :=
  match c with
  | Original => call_original a
  | FunctionWrapper wrapped wrapper => wrapper (call wrapped) a
  end.

(** [logger.makeRecord(...)] as the logging framework performs it on every
    log call. *)
Definition Logger_makeRecord_call (logging : LoggingModule) (a : CallArgs)
  : M loc :=
  call (Logger_makeRecord logging) a.

(** The lifecycle operations a program can perform, and the module state
    after a sequence of them, starting from the unpatched module. *)
Inductive lifecycle_op : Type := Patch | Unpatch.

Definition lifecycle_step (logging : LoggingModule) (o : lifecycle_op)
  : LoggingModule :=
  match o with
  | Patch => patch logging
  | Unpatch => unpatch logging
  end.

Definition initial : LoggingModule :=
  {| _datadog_patch := None; Logger_makeRecord := Original |}.

Definition after (ops : list lifecycle_op) : LoggingModule :=
  fold_left lifecycle_step ops initial.

(** ** Vocabulary for the statements *)

(** The tracer the hook asks: [ddtrace.config.logging.tracer or ddtrace.tracer]. *)
Definition tracer_in_use (dd : Ddtrace) : Tracer :=
  default (dd_tracer dd) (ic_tracer (cfg_logging (dd_config dd))).

(** The value of [version] (resp. [env]) just before [_inject_or_default]
    is called: the tag if the span exists and has the key, else the
    configured value. *)
Definition resolved (key : string) (configured : option string)
    (span : option Span) : pyval :=
  match span with
  | Some sp => if bool_decide (is_Some (meta sp !! key))
               then get_tag sp key else of_optional configured
  | None => of_optional configured
  end.

(** What [_inject_or_default] writes for [value] with the default [""]. *)
Definition or_default (value : pyval) : pyval :=
  if truthy value then value else RECORD_ATTR_VALUE_EMPTY.

(** The pair of identifiers written for a span. *)
Definition identifiers (span : option Span) : pyval * pyval :=
  match span with
  | Some sp =>
      if truthy (PyInt (trace_id sp)) && truthy (PyInt (span_id sp))
      then (PyInt (trace_id sp), PyInt (span_id sp))
      else (RECORD_ATTR_VALUE_ZERO, RECORD_ATTR_VALUE_ZERO)
  | None => (RECORD_ATTR_VALUE_ZERO, RECORD_ATTR_VALUE_ZERO)
  end.

(** The four writes of one run of the hook on [record], in program order. *)
Definition writes (dd : Ddtrace) (record : loc) (span : option Span)
  : list (string * pyval) :=
  [ (RECORD_ATTR_VERSION, or_default (resolved VERSION_KEY (cfg_version (dd_config dd)) span));
    (RECORD_ATTR_ENV, or_default (resolved ENV_KEY (cfg_env (dd_config dd)) span));
    (RECORD_ATTR_TRACE_ID, (identifiers span).1);
    (RECORD_ATTR_SPAN_ID, (identifiers span).2) ].

(** The heap after a list of attribute writes on [record]. *)
Definition store (record : loc) (kvs : list (string * pyval))
    (h : gmap loc (gmap string pyval)) : gmap loc (gmap string pyval) :=
  fold_left (λ h kv, alter (insert kv.1 kv.2) record h) kvs h.

(** The world the hook leaves when the wrapped function answered [record]
    in world [w1] and the tracer answered [span]. *)
Definition augmented (w1 : world) (record : loc) (span : option Span) : world :=
  {| heap := store record (writes (ddtrace w1) record span) (heap w1);
     ddtrace := ddtrace w1;
     trace := trace w1 ++ EvCurrentSpan ::
       map (λ kv, EvSetattr record kv.1 kv.2) (writes (ddtrace w1) record span) |}.

(** The world the hook leaves when the tracer raised. *)
Definition asked (w1 : world) : world :=
  {| heap := heap w1; ddtrace := ddtrace w1; trace := trace w1 ++ [EvCurrentSpan] |}.

(** The fallback chain in the words of the specification: the span's tag
    value if a span exists and its tag mapping has the key, else the global
    configuration value, else the empty string. *)
Definition fallback_chain (span : option Span) (key : string)
    (configured : option string) : string :=
  match span with
  | Some sp =>
      match meta sp !! key with
      | Some tag => tag
      | None => default "" configured
      end
  | None => default "" configured
  end.

(** The binding that [patch] installs on an unpatched module: one wrapper
    around the framework's function. *)
Definition installed : callable := FunctionWrapper Original _w_makeRecord.

(** The world [w] with another process-default tracer, [ddtrace.tracer]. *)
Definition with_default_tracer (other : Tracer) (w : world) : world :=
  {| heap := heap w;
     ddtrace := {| dd_config := dd_config (ddtrace w); dd_tracer := other |};
     trace := trace w |}.

(** An attribute dictionary after a list of attribute writes. *)
Definition assign (kvs : list (string * pyval)) (o : gmap string pyval)
  : gmap string pyval :=
  fold_left (λ o kv, <[kv.1 := kv.2]> o) kvs o.

(** ** Concrete inputs *)

Definition hello : CallArgs := {| args := [PyStr "Hello!"]; kwargs := [] |}.

(** A record construction that allocates the record next to the highest
    location in use and fills in two of its attributes. *)
Definition new_record (a : CallArgs) (h : gmap loc (gmap string pyval))
  : result loc * gmap loc (gmap string pyval) :=
  let record := Pos.succ (map_fold (λ l _ top, Pos.max l top) 1%positive h) in
  (Ok record,
   <[record := {[ "msg" := default PyNone (head (args a)); "name" := PyStr "root" ]}]> h).

(** A record construction that raises. *)
Definition broken_record (a : CallArgs) (h : gmap loc (gmap string pyval))
  : result loc * gmap loc (gmap string pyval) :=
  (Raise (Exception "KeyError"), h).

(** The same construction as a wrapped function, and the world it leaves. *)
Definition construct (a : CallArgs) : M loc := on_heap (new_record a).

Definition constructed (w : world) : world := (construct hello w).2.

(** A world with an empty heap, no tracer override, and a default tracer
    that answers [answer]. *)
Definition world_with (env version : option string)
    (answer : result (option Span)) : world :=
  {| heap := ∅;
     ddtrace := {| dd_config := {| cfg_env := env; cfg_version := version;
                                   cfg_logging := {| ic_tracer := None |} |};
                   dd_tracer := {| current_span := answer |} |};
     trace := [] |}.

Definition span_untagged : Span :=
  {| trace_id := 111; span_id := 222; meta := ∅ |}.

Definition span_half_identified : Span :=
  {| trace_id := 111; span_id := 0; meta := ∅ |}.

Definition span_staging : Span :=
  {| trace_id := 111; span_id := 222;
     meta := {[ "env" := "prod-staging"; "version" := "1.2.3" ]} |}.

Definition span_both_versions : Span :=
  {| trace_id := 111; span_id := 222;
     meta := {[ "version" := "2.0.0"; "service.version" := "1.2.3" ]} |}.

Definition span_empty_tags : Span :=
  {| trace_id := 111; span_id := 222;
     meta := {[ "env" := ""; "version" := "" ]} |}.

(** A record construction whose caller passed [extra]: the record already
    has a [dd.version] and a [dd.env] attribute when the hook sees it. *)
Definition new_record_with_extra (a : CallArgs) (h : gmap loc (gmap string pyval))
  : result loc * gmap loc (gmap string pyval) :=
  let record := Pos.succ (map_fold (λ l _ top, Pos.max l top) 1%positive h) in
  (Ok record,
   <[record := {[ "msg" := default PyNone (head (args a));
                  "dd.version" := PyStr "from-extra";
                  "dd.env" := PyInt 7 ]}]> h).

Definition construct_with_extra (a : CallArgs) : M loc :=
  on_heap (new_record_with_extra a).

Definition goodbye : CallArgs :=
  {| args := [PyStr "Bye"]; kwargs := [("exc_info", PyBool true)] |}.

Definition span_other_team : Span :=
  {| trace_id := 7; span_id := 8;
     meta := {[ "version" := "1.2.3"; "team" := "core" ]} |}.

(** A world whose integration configuration names an override tracer. *)
Definition world_with_override (override default_tracer : Tracer) : world :=
  {| heap := ∅;
     ddtrace := {| dd_config := {| cfg_env := Some "prod"; cfg_version := None;
                                   cfg_logging := {| ic_tracer := Some override |} |};
                   dd_tracer := default_tracer |};
     trace := [] |}.

(** ** Running the hook *)

Lemma hook_func_raises func a w e w1 :
  func a w = (Raise e, w1) →
  _w_makeRecord func a w = (Raise e, w1).
Proof.
  intros Hf. unfold _w_makeRecord, mbind, M_bind. by rewrite Hf.
Qed.

Lemma hook_lookup_raises func a w r w1 e :
  func a w = (Ok r, w1) →
  current_span (tracer_in_use (ddtrace w1)) = Raise e →
  _w_makeRecord func a w = (Raise e, asked w1).
Proof.
  intros Hf Hs. unfold _w_makeRecord, mbind, M_bind. rewrite Hf. simpl.
  unfold call_current_span, mbind, M_bind, log. simpl.
  unfold tracer_in_use in Hs.
  destruct (ic_tracer _); simpl in *; by rewrite Hs.
Qed.

Lemma hook_returns func a w r w1 span :
  func a w = (Ok r, w1) →
  current_span (tracer_in_use (ddtrace w1)) = Ok span →
  _w_makeRecord func a w = (Ok r, augmented w1 r span).
Proof.
  intros Hf Hs. unfold _w_makeRecord, mbind, M_bind. rewrite Hf.
  unfold tracer_in_use in Hs.
  cbn -[truthy] in *.
  unfold call_current_span, mbind, M_bind, log.
  cbn -[truthy].
  assert (current_span
            match ic_tracer (cfg_logging (dd_config (ddtrace w1))) with
            | Some t => t
            | None => dd_tracer (ddtrace w1)
            end = Ok span) as -> by (destruct (ic_tracer _); exact Hs).
  unfold augmented, writes, store, identifiers, resolved, or_default,
    _inject_or_default, setattr, mret, M_ret.
  cbn -[truthy].
  destruct span as [sp|]; cbn -[truthy].
  - destruct (truthy (PyInt (trace_id sp)) && truthy (PyInt (span_id sp)));
      cbn -[truthy];
      repeat match goal with
             | |- context [truthy ?v] => destruct (truthy v); cbn -[truthy]
             end;
      rewrite <- ?app_assoc; reflexivity.
  - repeat match goal with
           | |- context [truthy ?v] => destruct (truthy v); cbn -[truthy]
           end;
      rewrite <- ?app_assoc; reflexivity.
Qed.

(** ** Attribute writes on the heap *)

Lemma getattr_alter_eq (h : gmap loc (gmap string pyval)) r k v :
  is_Some (h !! r) →
  getattr (alter (insert k v) r h) r k = Some v.
Proof.
  intros [o Ho]. unfold getattr.
  rewrite lookup_alter_eq, Ho. simpl. apply lookup_insert_eq.
Qed.

Lemma getattr_alter_ne (h : gmap loc (gmap string pyval)) r k v l k' :
  l ≠ r ∨ k' ≠ k →
  getattr (alter (insert k v) r h) l k' = getattr h l k'.
Proof.
  intros Hne. unfold getattr.
  destruct (decide (l = r)) as [->|Hl].
  - destruct Hne as [?|Hk]; [done|].
    rewrite lookup_alter_eq. destruct (h !! r); simpl; [|done].
    by apply lookup_insert_ne.
  - by rewrite lookup_alter_ne.
Qed.

Lemma alter_is_Some (h : gmap loc (gmap string pyval)) r k v l :
  is_Some (alter (insert k v) r h !! l) ↔ is_Some (h !! l).
Proof.
  destruct (decide (l = r)) as [->|Hl].
  - rewrite lookup_alter_eq. destruct (h !! r); simpl; split; intros [? ?]; eauto; done.
  - by rewrite lookup_alter_ne.
Qed.

Lemma store_is_Some r kvs (h : gmap loc (gmap string pyval)) l :
  is_Some (store r kvs h !! l) ↔ is_Some (h !! l).
Proof.
  revert h. induction kvs as [|[k v] kvs IH]; intros h; simpl; [done|].
  unfold store in *. simpl. rewrite IH. apply alter_is_Some.
Qed.

(** Writes on [r] leave every other object, and every attribute of [r]
    that is not written, as they were. *)
Lemma store_frame r kvs (h : gmap loc (gmap string pyval)) l k :
  l ≠ r ∨ k ∉ kvs.*1 →
  getattr (store r kvs h) l k = getattr h l k.
Proof.
  revert h. induction kvs as [|[k0 v0] kvs IH]; intros h Hne; [done|].
  unfold store in *. simpl. rewrite IH.
  - apply getattr_alter_ne. destruct Hne as [?|Hk]; [by left|right].
    intros ->. apply Hk. simpl. left.
  - destruct Hne as [?|Hk]; [by left|right].
    intros Hin. apply Hk. simpl. by right.
Qed.

(** The last write to an attribute is the one that is read back. *)
Lemma store_last r kvs k v (h : gmap loc (gmap string pyval)) :
  is_Some (h !! r) →
  k ∉ kvs.*1 →
  getattr (store r ((k, v) :: kvs) h) r k = Some v.
Proof.
  intros Hr Hk. unfold store. simpl. fold (store r kvs (alter (insert k v) r h)).
  rewrite store_frame by (by right).
  by apply getattr_alter_eq.
Qed.

Lemma writes_keys dd r span :
  (writes dd r span).*1 = correlation_attrs.
Proof. reflexivity. Qed.

Lemma getattr_version h dd r span :
  is_Some (h !! r) →
  getattr (store r (writes dd r span) h) r RECORD_ATTR_VERSION
  = Some (or_default (resolved VERSION_KEY (cfg_version (dd_config dd)) span)).
Proof.
  intros Hr. unfold writes. apply store_last; [done|].
  cbn. rewrite !not_elem_of_cons. repeat split; try done. apply not_elem_of_nil.
Qed.

Lemma getattr_env h dd r span :
  is_Some (h !! r) →
  getattr (store r (writes dd r span) h) r RECORD_ATTR_ENV
  = Some (or_default (resolved ENV_KEY (cfg_env (dd_config dd)) span)).
Proof.
  intros Hr. unfold writes, store. simpl.
  match goal with |- getattr (alter _ _ (alter _ _ (alter _ _ ?h0))) _ _ = _ =>
    assert (is_Some (h0 !! r)) as H0 by (by apply alter_is_Some) end.
  rewrite !getattr_alter_ne by (by right).
  by apply getattr_alter_eq.
Qed.

Lemma getattr_trace_id h dd r span :
  is_Some (h !! r) →
  getattr (store r (writes dd r span) h) r RECORD_ATTR_TRACE_ID
  = Some (identifiers span).1.
Proof.
  intros Hr. unfold writes, store. simpl.
  rewrite !getattr_alter_ne by (by right).
  apply getattr_alter_eq. by rewrite !alter_is_Some.
Qed.

Lemma getattr_span_id h dd r span :
  is_Some (h !! r) →
  getattr (store r (writes dd r span) h) r RECORD_ATTR_SPAN_ID
  = Some (identifiers span).2.
Proof.
  intros Hr. unfold writes, store. simpl.
  apply getattr_alter_eq. by rewrite !alter_is_Some.
Qed.

(** With string-valued tags and an optional configured string, the written
    value is the string the fallback chain yields. *)
Lemma or_default_of_optional (o : option string) :
  or_default (of_optional o) = PyStr (default "" o).
Proof.
  destruct o as [s|]; [|done]. unfold or_default. simpl.
  destruct (String.eqb_spec s ""); by subst.
Qed.

Lemma or_default_resolved key configured span :
  or_default (resolved key configured span)
  = PyStr (fallback_chain span key configured).
Proof.
  unfold resolved, fallback_chain, get_tag. destruct span as [sp|].
  - destruct (meta sp !! key) as [tag|] eqn:Htag.
    + rewrite bool_decide_eq_true_2 by eauto.
      apply (or_default_of_optional (Some tag)).
    + rewrite bool_decide_eq_false_2 by (intros [? ?]; done).
      apply or_default_of_optional.
  - apply or_default_of_optional.
Qed.

(** ** [_inject_or_default] on its own *)

Lemma inject_or_default_run record key value w :
  _inject_or_default record key value RECORD_ATTR_VALUE_EMPTY w
  = setattr record key (or_default value) w.
Proof.
  unfold _inject_or_default, or_default. by destruct (truthy value).
Qed.

(** Any falsy value, [None], [False], [0] or [""], is stored as [""]. *)
Lemma inject_or_default_falsy record key value w :
  truthy value = false →
  is_Some (heap w !! record) →
  ∃ w', _inject_or_default record key value RECORD_ATTR_VALUE_EMPTY w = (Ok tt, w') ∧
        getattr (heap w') record key = Some (PyStr "").
Proof.
  intros Hfalsy Hrecord. rewrite inject_or_default_run.
  unfold or_default. rewrite Hfalsy. eexists. split; [reflexivity|].
  by apply getattr_alter_eq.
Qed.

(** A truthy value is stored as it is. *)
Lemma inject_or_default_truthy record key value w :
  truthy value = true →
  is_Some (heap w !! record) →
  ∃ w', _inject_or_default record key value RECORD_ATTR_VALUE_EMPTY w = (Ok tt, w') ∧
        getattr (heap w') record key = Some value.
Proof.
  intros Htruthy Hrecord. rewrite inject_or_default_run.
  unfold or_default. rewrite Htruthy. eexists. split; [reflexivity|].
  by apply getattr_alter_eq.
Qed.

(** ** The lifecycle *)

Lemma after_snoc ops o :
  after (ops ++ [o]) = lifecycle_step (after ops) o.
Proof. unfold after. by rewrite fold_left_app. Qed.

(** Whatever sequence of [patch] and [unpatch] ran, the entry point is
    wrapped exactly once when the flag is set and not at all otherwise. *)
Lemma after_binding ops :
  Logger_makeRecord (after ops)
  = if getattr_datadog_patch (after ops) then installed else Original.
Proof.
  induction ops as [|o ops IH] using rev_ind; [done|].
  rewrite after_snoc. destruct o; simpl.
  - unfold patch. destruct (getattr_datadog_patch (after ops)) eqn:Hflag.
    + by rewrite Hflag.
    + simpl. unfold installed. by rewrite IH.
  - unfold unpatch. destruct (getattr_datadog_patch (after ops)) eqn:Hflag.
    + unfold _u. simpl. rewrite IH. done.
    + by rewrite Hflag.
Qed.

Lemma patch_active logging :
  getattr_datadog_patch (patch logging) = true.
Proof.
  unfold patch. by destruct (getattr_datadog_patch logging) eqn:Hflag.
Qed.

Lemma unpatch_inactive logging :
  getattr_datadog_patch (unpatch logging) = false.
Proof.
  unfold unpatch. destruct (getattr_datadog_patch logging) eqn:Hflag; [|done].
  unfold _u. simpl. by destruct (Logger_makeRecord logging).
Qed.

Lemma never_patched_inactive ops :
  Patch ∉ ops → after ops = initial.
Proof.
  induction ops as [|o ops IH] using rev_ind; [done|].
  rewrite not_elem_of_app, not_elem_of_cons. intros [Hops [Ho _]].
  rewrite after_snoc, IH by done. by destruct o.
Qed.

Lemma last_unpatch_inactive ops :
  last ops = Some Unpatch → getattr_datadog_patch (after ops) = false.
Proof.
  destruct ops as [|o ops _] using rev_ind; [done|].
  rewrite last_snoc. intros [= ->]. rewrite after_snoc. apply unpatch_inactive.
Qed.

Lemma patch_after_binding ops :
  patch (after ops) = {| _datadog_patch := Some true; Logger_makeRecord := installed |}.
Proof.
  pose proof (after_binding ops) as Hb. unfold patch.
  destruct (after ops) as [flag c]. simpl in *.
  destruct flag as [[|]|]; simpl in *; by subst.
Qed.

(** While the flag is set, a log call is one run of the hook around the
    framework's record construction. *)
Lemma active_call_is_hook ops a :
  getattr_datadog_patch (after ops) = true →
  Logger_makeRecord_call (after ops) a = _w_makeRecord call_original a.
Proof.
  intros Hflag. unfold Logger_makeRecord_call.
  rewrite after_binding, Hflag. reflexivity.
Qed.

(** ** The correlation fields *)

(** Runs the hook in a goal [∃ w', _w_makeRecord func a w = (Ok r, w') ∧ _]
    and leaves the second conjunct about the heap the hook produced. *)
Ltac run_hook :=
  eexists; split; [by apply hook_returns|];
  unfold augmented; cbn [heap].

(** C1. Every record the hook returns carries all four correlation
    attributes, with or without a current span; when there is no current
    span, [dd.env] and [dd.version] are the configured values (the empty
    string when not configured) and both identifiers are 0. *)
Theorem fields_always_present func a w r w1 span :
  func a w = (Ok r, w1) →
  is_Some (heap w1 !! r) →
  current_span (tracer_in_use (ddtrace w1)) = Ok span →
  ∃ w', _w_makeRecord func a w = (Ok r, w') ∧
    (∀ k, k ∈ correlation_attrs → is_Some (getattr (heap w') r k)) ∧
    (span = None →
     getattr (heap w') r "dd.env"
       = Some (PyStr (default "" (cfg_env (dd_config (ddtrace w1))))) ∧
     getattr (heap w') r "dd.version"
       = Some (PyStr (default "" (cfg_version (dd_config (ddtrace w1))))) ∧
     getattr (heap w') r "dd.trace_id" = Some (PyInt 0) ∧
     getattr (heap w') r "dd.span_id" = Some (PyInt 0)).
Proof.
  intros Hf Hr Hs. run_hook. split.
  - intros k Hk. unfold correlation_attrs in Hk.
    rewrite !elem_of_cons in Hk.
    destruct Hk as [->|[->|[->|[->|Hk]]]].
    + by rewrite getattr_version.
    + by rewrite getattr_env.
    + by rewrite getattr_trace_id.
    + by rewrite getattr_span_id.
    + by apply elem_of_nil in Hk.
  - intros ->.
    rewrite (getattr_env _ _ _ None Hr), (getattr_version _ _ _ None Hr),
      (getattr_trace_id _ _ _ None Hr), (getattr_span_id _ _ _ None Hr).
    unfold resolved. by rewrite !or_default_of_optional.
Qed.

(** C2. The environment and the version attributes each follow the same
    fallback chain, each with its own tag key and its own configured value:
    the span's tag if a span exists and its tag mapping has the key (also
    when a value is configured), else the configured value, else the empty
    string. *)
Theorem env_version_fallback_chain func a w r w1 span :
  func a w = (Ok r, w1) →
  is_Some (heap w1 !! r) →
  current_span (tracer_in_use (ddtrace w1)) = Ok span →
  ∃ w', _w_makeRecord func a w = (Ok r, w') ∧
    getattr (heap w') r "dd.env"
      = Some (PyStr (fallback_chain span ENV_KEY
                       (cfg_env (dd_config (ddtrace w1))))) ∧
    getattr (heap w') r "dd.version"
      = Some (PyStr (fallback_chain span VERSION_KEY
                       (cfg_version (dd_config (ddtrace w1))))).
Proof.
  intros Hf Hr Hs. run_hook.
  rewrite (getattr_env _ _ _ span Hr), (getattr_version _ _ _ span Hr).
  by rewrite !or_default_resolved.
Qed.


(** C4. The identifier attributes are the span's trace and span identifiers
    exactly when a span exists and both are non-zero; otherwise both are 0.
    They are never one zero and one non-zero. *)
Theorem identifiers_all_or_nothing func a w r w1 span :
  func a w = (Ok r, w1) →
  is_Some (heap w1 !! r) →
  current_span (tracer_in_use (ddtrace w1)) = Ok span →
  ∃ w' t s, _w_makeRecord func a w = (Ok r, w') ∧
    getattr (heap w') r "dd.trace_id" = Some (PyInt t) ∧
    getattr (heap w') r "dd.span_id" = Some (PyInt s) ∧
    match span with
    | Some sp =>
        if decide (trace_id sp ≠ 0 ∧ span_id sp ≠ 0)
        then t = trace_id sp ∧ s = span_id sp
        else t = 0 ∧ s = 0
    | None => t = 0 ∧ s = 0
    end ∧
    (t = 0 ↔ s = 0).
Proof.
  intros Hf Hr Hs.
  assert (∃ t s, identifiers span = (PyInt t, PyInt s) ∧
            match span with
            | Some sp =>
                if decide (trace_id sp ≠ 0 ∧ span_id sp ≠ 0)
                then t = trace_id sp ∧ s = span_id sp
                else t = 0 ∧ s = 0
            | None => t = 0 ∧ s = 0
            end ∧ (t = 0 ↔ s = 0)) as (t & s & Hids & Hcase & Hpair).
  { unfold identifiers. destruct span as [sp|]; [|by exists 0, 0].
    simpl. destruct (Z.eqb_spec (trace_id sp) 0) as [Ht|Ht];
      destruct (Z.eqb_spec (span_id sp) 0) as [Hsp|Hsp]; simpl.
    - exists 0, 0. rewrite decide_False by (intros [? ?]; done). done.
    - exists 0, 0. rewrite decide_False by (intros [? ?]; done). done.
    - exists 0, 0. rewrite decide_False by (intros [? ?]; done). done.
    - exists (trace_id sp), (span_id sp). rewrite decide_True by done.
      repeat split; intros ?; done. }
  exists (augmented w1 r span), t, s.
  split; [by apply hook_returns|].
  unfold augmented; cbn [heap].
  rewrite (getattr_trace_id _ _ _ span Hr), (getattr_span_id _ _ _ span Hr), Hids.
  done.
Qed.

(** C5. Whenever the value resolved for the version or for the environment
    is falsy, whichever branch produced it, the attribute written is the
    empty string. *)
Theorem falsy_resolves_to_empty func a w r w1 span :
  func a w = (Ok r, w1) →
  is_Some (heap w1 !! r) →
  current_span (tracer_in_use (ddtrace w1)) = Ok span →
  ∃ w', _w_makeRecord func a w = (Ok r, w') ∧
    (truthy (resolved VERSION_KEY (cfg_version (dd_config (ddtrace w1))) span) = false →
     getattr (heap w') r "dd.version" = Some (PyStr "")) ∧
    (truthy (resolved ENV_KEY (cfg_env (dd_config (ddtrace w1))) span) = false →
     getattr (heap w') r "dd.env" = Some (PyStr "")).
Proof.
  intros Hf Hr Hs. run_hook.
  rewrite (getattr_env _ _ _ span Hr), (getattr_version _ _ _ span Hr).
  unfold or_default. by split; intros ->.
Qed.

(** C6, as the code has it.  A tracer that answers no span yields the
    default values: configured environment and version (else the empty
    string) and zero identifiers.  A tracer whose lookup raises makes the
    hook raise the same exception: nothing is written on the record and the
    record is not returned. *)
Theorem lookup_none_defaults_raise_propagates func a w r w1 :
  func a w = (Ok r, w1) →
  is_Some (heap w1 !! r) →
  match current_span (tracer_in_use (ddtrace w1)) with
  | Ok None =>
      ∃ w', _w_makeRecord func a w = (Ok r, w') ∧
        getattr (heap w') r "dd.env"
          = Some (PyStr (default "" (cfg_env (dd_config (ddtrace w1))))) ∧
        getattr (heap w') r "dd.version"
          = Some (PyStr (default "" (cfg_version (dd_config (ddtrace w1))))) ∧
        getattr (heap w') r "dd.trace_id" = Some (PyInt 0) ∧
        getattr (heap w') r "dd.span_id" = Some (PyInt 0)
  | Ok (Some _) => ∃ w', _w_makeRecord func a w = (Ok r, w')
  | Raise e =>
      ∃ w', _w_makeRecord func a w = (Raise e, w') ∧
        heap w' = heap w1 ∧
        trace w' = trace w1 ++ [EvCurrentSpan]
  end.
Proof.
  intros Hf Hr.
  destruct (current_span (tracer_in_use (ddtrace w1))) as [[sp|]|e] eqn:Hs.
  - eexists. by apply hook_returns.
  - exists (augmented w1 r None). split; [by apply hook_returns|].
    unfold augmented; cbn [heap].
    rewrite (getattr_env _ _ _ None Hr), (getattr_version _ _ _ None Hr),
      (getattr_trace_id _ _ _ None Hr), (getattr_span_id _ _ _ None Hr).
    unfold resolved. by rewrite !or_default_of_optional.
  - exists (asked w1). split; [by apply (hook_lookup_raises _ _ _ r)|done].
Qed.

(** C7. After any sequence of [patch] and [unpatch] calls: a second [patch]
    changes nothing; [unpatch] on an inactive module changes nothing; and
    [patch], [unpatch], [patch] leaves the module as one [patch] does, with
    the framework's function wrapped exactly once, so that a log call runs
    the hook once around the framework's record construction. *)
Theorem lifecycle_idempotent ops :
  patch (patch (after ops)) = patch (after ops) ∧
  (getattr_datadog_patch (after ops) = false →
   unpatch (after ops) = after ops) ∧
  patch (unpatch (patch (after ops))) = patch (after ops) ∧
  Logger_makeRecord (patch (unpatch (patch (after ops))))
    = FunctionWrapper Original _w_makeRecord ∧
  (∀ a, Logger_makeRecord_call (patch (patch (after ops))) a
        = Logger_makeRecord_call (patch (after ops)) a) ∧
  (∀ a, Logger_makeRecord_call (patch (unpatch (patch (after ops)))) a
        = _w_makeRecord call_original a).
Proof.
  assert (patch (unpatch (patch (after ops))) = patch (after ops)) as Hcycle.
  { pose proof (after_snoc ops Patch) as Hp.
    pose proof (after_snoc (ops ++ [Patch]) Unpatch) as Hu.
    simpl in Hp, Hu. rewrite <- Hp, <- Hu, patch_after_binding.
    by rewrite Hp, patch_after_binding. }
  assert (patch (patch (after ops)) = patch (after ops)) as Htwice.
  { unfold patch at 1. by rewrite patch_active. }
  repeat split.
  - exact Htwice.
  - intros Hflag. unfold unpatch. by rewrite Hflag.
  - exact Hcycle.
  - rewrite Hcycle. by rewrite patch_after_binding.
  - intros a. by rewrite Htwice.
  - intros a. rewrite Hcycle, patch_after_binding. reflexivity.
Qed.

(** C8. While the module is inactive, because [patch] never ran or because
    the last lifecycle call was [unpatch], a log call is the framework's
    own record construction and nothing else: the heap is the one that
    construction left, and no attribute write follows it. *)
Theorem inactive_sets_nothing ops a w :
  getattr_datadog_patch (after ops) = false ∨
    Patch ∉ ops ∨ last ops = Some Unpatch →
  ∃ res h1 w',
    makeRecord a (heap w) = (res, h1) ∧
    Logger_makeRecord_call (after ops) a w = (res, w') ∧
    heap w' = h1 ∧
    trace w' = trace w ++ [EvOriginal a] ∧
    ∀ l k, getattr (heap w') l k = getattr h1 l k.
Proof.
  intros Hinactive.
  assert (getattr_datadog_patch (after ops) = false) as Hflag.
  { destruct Hinactive as [?|[Hnever|Hlast]]; [done| |].
    - by rewrite never_patched_inactive.
    - by apply last_unpatch_inactive. }
  unfold Logger_makeRecord_call. rewrite after_binding, Hflag. simpl.
  unfold call_original, mbind, M_bind, log, on_heap. simpl.
  destruct (makeRecord a (heap w)) as [res h1] eqn:Horig.
  exists res, h1. eexists. split; [done|].
  split; [by destruct res|]. by destruct res.
Qed.

(** C9. One run of the installed hook: the framework's record construction
    runs first and once; when the hook returns, it returns the very object
    that construction produced; the only writes are to the four correlation
    attributes of that object, so every other attribute of it, and every
    other object, is as the construction left it. *)
Theorem hook_frame a w :
  ∃ res h1 res' w' later,
    makeRecord a (heap w) = (res, h1) ∧
    _w_makeRecord call_original a w = (res', w') ∧
    trace w' = trace w ++ EvOriginal a :: later ∧
    Forall (λ ev, ∀ a', ev ≠ EvOriginal a') later ∧
    ddtrace w' = ddtrace w ∧
    match res with
    | Raise e => res' = Raise e ∧ heap w' = h1 ∧ later = []
    | Ok r =>
        (∀ r', res' = Ok r' → r' = r) ∧
        (∀ span, current_span (tracer_in_use (ddtrace w)) = Ok span →
                 res' = Ok r) ∧
        Forall (λ ev, ev = EvCurrentSpan ∨
                      ∃ k v, ev = EvSetattr r k v ∧ k ∈ correlation_attrs) later ∧
        (∀ l k, l ≠ r ∨ k ∉ correlation_attrs →
                getattr (heap w') l k = getattr h1 l k) ∧
        (∀ l, is_Some (heap w' !! l) ↔ is_Some (h1 !! l))
    end.
Proof.
  destruct (makeRecord a (heap w)) as [res h1] eqn:Horig.
  set (w1 := {| heap := h1; ddtrace := ddtrace w; trace := trace w ++ [EvOriginal a] |}).
  assert (call_original a w = (res, w1)) as Hcall.
  { unfold call_original, mbind, M_bind, log, on_heap. simpl. by rewrite Horig. }
  destruct res as [r|e].
  - destruct (current_span (tracer_in_use (ddtrace w1))) as [span|e] eqn:Hs.
    + exists (Ok r), h1, (Ok r), (augmented w1 r span),
        (EvCurrentSpan ::
           map (λ kv, EvSetattr r kv.1 kv.2) (writes (ddtrace w1) r span)).
      split; [done|]. split; [by apply hook_returns|].
      split; [simpl; by rewrite <- app_assoc|].
      split; [repeat constructor; intros a' [=]|].
      split; [done|].
      split; [by intros r' [= ->]|]. split; [done|].
      split.
      * apply List.Forall_cons; [by left|].
        unfold writes; cbn [map fst snd].
        repeat (apply List.Forall_cons;
                [right; eexists _, _; split; [reflexivity|];
                 unfold correlation_attrs; rewrite !elem_of_cons; tauto|]).
        apply List.Forall_nil.
      * split.
        -- intros l k Hne. unfold augmented; cbn [heap].
           apply store_frame. by rewrite writes_keys.
        -- intros l. unfold augmented; cbn [heap]. apply store_is_Some.
    + exists (Ok r), h1, (Raise e), (asked w1), [EvCurrentSpan].
      split; [done|]. split; [by apply (hook_lookup_raises _ _ _ r)|].
      split; [simpl; by rewrite <- app_assoc|].
      split; [repeat constructor; intros a' [=]|].
      split; [done|].
      split; [by intros r' [=]|].
      split; [intros span Hspan; simpl in Hs; congruence|].
      split; [apply List.Forall_cons; [by left|apply List.Forall_nil]|].
      split; [done|done].
  - exists (Raise e), h1, (Raise e), w1, [].
    split; [done|]. split; [by apply hook_func_raises|].
    split; [done|]. split; [constructor|]. done.
Qed.

(** C10. A span whose tag mapping has the environment (resp. version) key
    with an empty value yields the empty string for that attribute,
    whatever is configured globally: presence of the key decides, not the
    truth value of the tag. *)
Theorem key_presence_decides func a w r w1 sp :
  func a w = (Ok r, w1) →
  is_Some (heap w1 !! r) →
  current_span (tracer_in_use (ddtrace w1)) = Ok (Some sp) →
  ∃ w', _w_makeRecord func a w = (Ok r, w') ∧
    (∀ tag, meta sp !! ENV_KEY = Some tag → truthy (PyStr tag) = false →
            getattr (heap w') r "dd.env" = Some (PyStr "")) ∧
    (∀ tag, meta sp !! VERSION_KEY = Some tag → truthy (PyStr tag) = false →
            getattr (heap w') r "dd.version" = Some (PyStr "")).
Proof.
  intros Hf Hr Hs. run_hook.
  rewrite (getattr_env _ _ _ (Some sp) Hr), (getattr_version _ _ _ (Some sp) Hr).
  unfold resolved, or_default, get_tag.
  split; intros tag Htag Hfalsy; rewrite Htag;
    (rewrite bool_decide_eq_true_2 by eauto); simpl in *; by rewrite Hfalsy.
Qed.

(** ** Further properties of the hook *)

Lemma call_original_run a w :
  call_original a w
  = ((makeRecord a (heap w)).1,
     {| heap := (makeRecord a (heap w)).2; ddtrace := ddtrace w;
        trace := trace w ++ [EvOriginal a] |}).
Proof.
  unfold call_original, mbind, M_bind, log, on_heap. simpl.
  by destruct (makeRecord a (heap w)) as [[r|e] h].
Qed.

Lemma fallback_chain_inputs span key configured :
  fallback_chain span key configured
  = default (default "" configured) (span ≫= (λ sp, meta sp !! key)).
Proof.
  unfold fallback_chain. destruct span as [sp|]; [|done]. simpl.
  by destruct (meta sp !! key).
Qed.

Lemma identifiers_inputs span span' :
  (λ sp, (trace_id sp, span_id sp)) <$> span
  = (λ sp, (trace_id sp, span_id sp)) <$> span' →
  identifiers span = identifiers span'.
Proof.
  unfold identifiers. destruct span as [sp|], span' as [sp'|]; simpl; try done.
  by intros [= -> ->].
Qed.

(** Attribute writes seen on the attribute dictionary. *)
Lemma assign_other kvs (o : gmap string pyval) k :
  k ∉ kvs.*1 → assign kvs o !! k = o !! k.
Proof.
  revert o. induction kvs as [|[k0 v0] kvs IH]; intros o Hk; [done|].
  unfold assign in *. simpl in *. apply not_elem_of_cons in Hk as [Hne Hk].
  rewrite IH by done. by apply lookup_insert_ne.
Qed.

Lemma assign_overwrites kvs (o o' : gmap string pyval) k :
  k ∈ kvs.*1 → assign kvs o !! k = assign kvs o' !! k.
Proof.
  revert o o'. induction kvs as [|[k0 v0] kvs IH]; intros o o' Hk.
  - by apply elem_of_nil in Hk.
  - destruct (decide (k ∈ kvs.*1)) as [Hin|Hout].
    + unfold assign in *. simpl. by apply IH.
    + simpl in Hk. apply elem_of_cons in Hk as [->|Hk]; [|done].
      change (assign kvs (<[k0:=v0]> o) !! k0 = assign kvs (<[k0:=v0]> o') !! k0).
      rewrite !assign_other by done. by rewrite !lookup_insert_eq.
Qed.

Lemma assign_twice kvs (o : gmap string pyval) :
  assign kvs (assign kvs o) = assign kvs o.
Proof.
  apply map_eq. intros k. destruct (decide (k ∈ kvs.*1)) as [Hin|Hout].
  - by apply assign_overwrites.
  - by rewrite assign_other.
Qed.

Lemma store_alter r kvs (h : gmap loc (gmap string pyval)) :
  store r kvs h = alter (assign kvs) r h.
Proof.
  revert h. induction kvs as [|[k v] kvs IH]; intros h.
  - unfold store, assign. simpl. apply map_eq. intros l.
    destruct (decide (l = r)) as [->|Hne].
    + rewrite lookup_alter_eq. by destruct (h !! r).
    + by rewrite lookup_alter_ne.
  - change (store r kvs (alter (insert k v) r h)
            = alter (λ o, assign kvs (<[k:=v]> o)) r h).
    rewrite IH. apply map_eq. intros l.
    destruct (decide (l = r)) as [->|Hne].
    + rewrite !lookup_alter_eq. by destruct (h !! r).
    + by rewrite !lookup_alter_ne.
Qed.

Lemma store_twice r kvs (h : gmap loc (gmap string pyval)) :
  store r kvs (store r kvs h) = store r kvs h.
Proof.
  rewrite !store_alter. apply map_eq. intros l.
  destruct (decide (l = r)) as [->|Hne].
  - rewrite !lookup_alter_eq. destruct (h !! r); simpl; [|done].
    by rewrite assign_twice.
  - by rewrite !lookup_alter_ne.
Qed.

(** X1. When the integration configuration names an override tracer, a log
    call through the hook does not depend on the process-default tracer:
    with any other default tracer the outcome, the heap and the trace are
    the same. *)
Theorem override_shields_default a w override other :
  ic_tracer (cfg_logging (dd_config (ddtrace w))) = Some override →
  (_w_makeRecord call_original a w).1
    = (_w_makeRecord call_original a (with_default_tracer other w)).1 ∧
  heap (_w_makeRecord call_original a w).2
    = heap (_w_makeRecord call_original a (with_default_tracer other w)).2 ∧
  trace (_w_makeRecord call_original a w).2
    = trace (_w_makeRecord call_original a (with_default_tracer other w)).2.
Proof.
  intros Hoverride.
  pose proof (call_original_run a w) as Hw.
  pose proof (call_original_run a (with_default_tracer other w)) as Hw'.
  cbn [with_default_tracer heap ddtrace trace] in Hw'.
  destruct (makeRecord a (heap w)) as [[r|e] h1]; cbn [fst snd] in Hw, Hw'.
  - destruct (current_span override) as [span|e] eqn:Hspan.
    + rewrite (hook_returns _ _ _ _ _ span Hw)
        by (unfold tracer_in_use; cbn [ddtrace]; by rewrite Hoverride).
      rewrite (hook_returns _ _ _ _ _ span Hw')
        by (unfold tracer_in_use; cbn [ddtrace dd_config]; by rewrite Hoverride).
      done.
    + rewrite (hook_lookup_raises _ _ _ _ _ e Hw)
        by (unfold tracer_in_use; cbn [ddtrace]; by rewrite Hoverride).
      rewrite (hook_lookup_raises _ _ _ _ _ e Hw')
        by (unfold tracer_in_use; cbn [ddtrace dd_config]; by rewrite Hoverride).
      done.
  - by rewrite (hook_func_raises _ _ _ _ _ Hw), (hook_func_raises _ _ _ _ _ Hw').
Qed.

(** X2. Each correlation attribute depends on its own inputs only.  Of two
    runs of the hook, with any wrapped functions, arguments, heaps and
    records: equal configured versions and equal version tags give equal
    [dd.version]; equal configured environments and equal environment tags
    give equal [dd.env]; equal span identifiers give equal [dd.trace_id] and
    [dd.span_id].  What the record held before, under these four names too,
    plays no part. *)
Theorem fields_depend_on_own_inputs
    func a w r w1 span func' a' w' r' w1' span' :
  func a w = (Ok r, w1) →
  is_Some (heap w1 !! r) →
  current_span (tracer_in_use (ddtrace w1)) = Ok span →
  func' a' w' = (Ok r', w1') →
  is_Some (heap w1' !! r') →
  current_span (tracer_in_use (ddtrace w1')) = Ok span' →
  ∃ v v',
    _w_makeRecord func a w = (Ok r, v) ∧
    _w_makeRecord func' a' w' = (Ok r', v') ∧
    (cfg_version (dd_config (ddtrace w1)) = cfg_version (dd_config (ddtrace w1')) →
     span ≫= (λ sp, meta sp !! VERSION_KEY) = span' ≫= (λ sp, meta sp !! VERSION_KEY) →
     getattr (heap v) r "dd.version" = getattr (heap v') r' "dd.version") ∧
    (cfg_env (dd_config (ddtrace w1)) = cfg_env (dd_config (ddtrace w1')) →
     span ≫= (λ sp, meta sp !! ENV_KEY) = span' ≫= (λ sp, meta sp !! ENV_KEY) →
     getattr (heap v) r "dd.env" = getattr (heap v') r' "dd.env") ∧
    ((λ sp, (trace_id sp, span_id sp)) <$> span
       = (λ sp, (trace_id sp, span_id sp)) <$> span' →
     getattr (heap v) r "dd.trace_id" = getattr (heap v') r' "dd.trace_id" ∧
     getattr (heap v) r "dd.span_id" = getattr (heap v') r' "dd.span_id").
Proof.
  intros Hf Hr Hs Hf' Hr' Hs'.
  exists (augmented w1 r span), (augmented w1' r' span').
  split; [by apply hook_returns|]. split; [by apply hook_returns|].
  unfold augmented; cbn [heap].
  rewrite (getattr_version _ _ _ span Hr), (getattr_version _ _ _ span' Hr'),
    (getattr_env _ _ _ span Hr), (getattr_env _ _ _ span' Hr'),
    (getattr_trace_id _ _ _ span Hr), (getattr_trace_id _ _ _ span' Hr'),
    (getattr_span_id _ _ _ span Hr), (getattr_span_id _ _ _ span' Hr').
  rewrite !or_default_resolved, !fallback_chain_inputs.
  split; [by intros -> ->|]. split; [by intros -> ->|].
  intros Hids. by rewrite (identifiers_inputs _ _ Hids).
Qed.

(** X3. A run of the hook that returns asks the tracer for the current span
    once, after the wrapped function returned, and then writes each of the
    four attributes once, in the order version, environment, trace
    identifier, span identifier; nothing else happens. *)
Theorem one_lookup_four_writes func a w r w1 span :
  func a w = (Ok r, w1) →
  current_span (tracer_in_use (ddtrace w1)) = Ok span →
  ∃ w' version env tid sid,
    _w_makeRecord func a w = (Ok r, w') ∧
    trace w' = trace w1 ++
      [ EvCurrentSpan;
        EvSetattr r "dd.version" version;
        EvSetattr r "dd.env" env;
        EvSetattr r "dd.trace_id" tid;
        EvSetattr r "dd.span_id" sid ].
Proof.
  intros Hf Hs. exists (augmented w1 r span). do 4 eexists.
  split; [by apply hook_returns|]. reflexivity.
Qed.

(** X4. Wrapping the hook in itself does not change what a record carries:
    the hook run around the hook returns the same record and leaves the same
    heap as one run. *)
Theorem stacked_hook_same_heap func a w r w1 span :
  func a w = (Ok r, w1) →
  current_span (tracer_in_use (ddtrace w1)) = Ok span →
  ∃ once twice,
    _w_makeRecord func a w = (Ok r, once) ∧
    _w_makeRecord (_w_makeRecord func) a w = (Ok r, twice) ∧
    heap twice = heap once ∧
    ddtrace twice = ddtrace once.
Proof.
  intros Hf Hs.
  exists (augmented w1 r span), (augmented (augmented w1 r span) r span).
  split; [by apply hook_returns|].
  split; [apply hook_returns; [by apply hook_returns|exact Hs]|].
  split; [|done].
  unfold augmented; cbn [heap ddtrace]. apply store_twice.
Qed.

(** X7. A span whose identifiers are not both non-zero is still the source
    of the tags: its environment and version tags are written, while both
    identifier attributes are 0. *)
Theorem half_identified_span_keeps_tags func a w r w1 sp env version :
  func a w = (Ok r, w1) →
  is_Some (heap w1 !! r) →
  current_span (tracer_in_use (ddtrace w1)) = Ok (Some sp) →
  trace_id sp = 0 ∨ span_id sp = 0 →
  meta sp !! ENV_KEY = Some env →
  meta sp !! VERSION_KEY = Some version →
  ∃ w', _w_makeRecord func a w = (Ok r, w') ∧
    getattr (heap w') r "dd.env" = Some (PyStr env) ∧
    getattr (heap w') r "dd.version" = Some (PyStr version) ∧
    getattr (heap w') r "dd.trace_id" = Some (PyInt 0) ∧
    getattr (heap w') r "dd.span_id" = Some (PyInt 0).
Proof.
  intros Hf Hr Hs Hzero Henv Hversion. run_hook.
  rewrite (getattr_env _ _ _ (Some sp) Hr), (getattr_version _ _ _ (Some sp) Hr),
    (getattr_trace_id _ _ _ (Some sp) Hr), (getattr_span_id _ _ _ (Some sp) Hr).
  rewrite !or_default_resolved. unfold fallback_chain. rewrite Henv, Hversion.
  assert (identifiers (Some sp) = (PyInt 0, PyInt 0)) as ->; [|done].
  unfold identifiers. simpl.
  destruct Hzero as [-> | ->]; simpl; [done|].
  by rewrite andb_false_r.
Qed.

(** ** Further properties of the lifecycle *)

(** X5. The state of the module after a sequence of [patch] and [unpatch]
    calls is decided by the last call.  Ending in [patch], it is the state
    after one [patch] of the untouched module; ending in [unpatch], the flag
    reads false, the entry point is the framework's own function, and a log
    call behaves as on the untouched module. *)
Theorem last_call_decides ops :
  after (ops ++ [Patch]) = after [Patch] ∧
  getattr_datadog_patch (after (ops ++ [Unpatch])) = false ∧
  Logger_makeRecord (after (ops ++ [Unpatch])) = Original ∧
  (∀ a, Logger_makeRecord_call (after (ops ++ [Unpatch])) a
        = Logger_makeRecord_call initial a).
Proof.
  assert (getattr_datadog_patch (after (ops ++ [Unpatch])) = false) as Hflag.
  { rewrite after_snoc. apply unpatch_inactive. }
  assert (Logger_makeRecord (after (ops ++ [Unpatch])) = Original) as Hbinding.
  { by rewrite after_binding, Hflag. }
  split.
  - rewrite after_snoc. simpl. by rewrite patch_after_binding.
  - split; [done|]. split; [done|].
    intros a. unfold Logger_makeRecord_call. by rewrite Hbinding.
Qed.

End Hook.

(** ** Sample runs *)

(** Scenario B: a span with identifiers 111 and 222, no tags, nothing
    configured. *)
Example untagged_span_run :
  let w := world_with None None (Ok (Some span_untagged)) in
  let out := _w_makeRecord "version" "env" construct hello w in
  out.1 = Ok 2%positive ∧
  getattr (heap out.2) 2%positive "dd.env" = Some (PyStr "") ∧
  getattr (heap out.2) 2%positive "dd.version" = Some (PyStr "") ∧
  getattr (heap out.2) 2%positive "dd.trace_id" = Some (PyInt 111) ∧
  getattr (heap out.2) 2%positive "dd.span_id" = Some (PyInt 222) ∧
  getattr (heap out.2) 2%positive "msg" = Some (PyStr "Hello!").
Proof. vm_compute. repeat split; reflexivity. Qed.

(** Both version keys in the tag mapping: the primary one is written. *)
Example both_versions_run :
  let w := world_with None (Some "23.45.6") (Ok (Some span_both_versions)) in
  let out := _w_makeRecord "version" "env" construct hello w in
  getattr (heap out.2) 2%positive "dd.version" = Some (PyStr "2.0.0").
Proof. vm_compute. reflexivity. Qed.

(** A span tagged with the service-version key alone while a version is
    configured: the tag is written. *)
Example service_version_over_config_run :
  let sp := set_tag "version" "service.version" "service.version" "1.2.3"
              span_untagged in
  let w := world_with None (Some "23.45.6") (Ok (Some sp)) in
  let out := _w_makeRecord "version" "env" construct hello w in
  getattr (heap out.2) 2%positive "dd.version" = Some (PyStr "1.2.3").
Proof. vm_compute. reflexivity. Qed.

(** Tagged under the service-version key, then under the version key. *)
Example version_after_service_version_run :
  let sp := set_tag "version" "service.version" "version" "2.0.0"
              (set_tag "version" "service.version" "service.version" "1.2.3"
                 span_untagged) in
  let w := world_with None None (Ok (Some sp)) in
  let out := _w_makeRecord "version" "env" construct hello w in
  meta sp !! "service.version" = Some "1.2.3" ∧
  getattr (heap out.2) 2%positive "dd.version" = Some (PyStr "2.0.0").
Proof. vm_compute. split; reflexivity. Qed.

(** The trace of one log call on a patched module: the framework's
    construction, the lookup, then the four writes. *)
Example patched_call_trace :
  let w := world_with (Some "prod") None (Ok (Some span_untagged)) in
  let out := Logger_makeRecord_call new_record (after "version" "env" [Patch; Patch])
               hello w in
  out.1 = Ok 2%positive ∧
  trace out.2 =
    [ EvOriginal hello; EvCurrentSpan;
      EvSetattr 2%positive "dd.version" (PyStr "");
      EvSetattr 2%positive "dd.env" (PyStr "prod");
      EvSetattr 2%positive "dd.trace_id" (PyInt 111);
      EvSetattr 2%positive "dd.span_id" (PyInt 222) ].
Proof. vm_compute. split; reflexivity. Qed.

(** A construction that raises: the hook raises the same exception and asks
    the tracer nothing. *)
Example broken_construction_run :
  let w := world_with (Some "prod") None (Ok None) in
  let out := Logger_makeRecord_call broken_record (after "version" "env" [Patch])
               hello w in
  out.1 = Raise (Exception "KeyError") ∧
  trace out.2 = [EvOriginal hello] ∧
  heap out.2 = ∅.
Proof. vm_compute. repeat split; reflexivity. Qed.

(** ** The theorems at concrete inputs *)

(** Scenario A: no current span, [env = "prod"], [version = "23.45.6"]. *)
Lemma fields_always_present_witness :
  let w := world_with (Some "prod") (Some "23.45.6") (Ok None) in
  ∃ w', _w_makeRecord "version" "env" construct hello w = (Ok 2%positive, w') ∧
    getattr (heap w') 2%positive "dd.env" = Some (PyStr "prod") ∧
    getattr (heap w') 2%positive "dd.version" = Some (PyStr "23.45.6") ∧
    getattr (heap w') 2%positive "dd.trace_id" = Some (PyInt 0) ∧
    getattr (heap w') 2%positive "dd.span_id" = Some (PyInt 0).
Proof.
  intros w.
  destruct (fields_always_present "version" "env" construct hello w 2%positive
              (constructed w) None) as (w' & Hrun & _ & Hnone).
  - vm_compute. reflexivity.
  - vm_compute. eauto.
  - reflexivity.
  - exists w'. split; [exact Hrun|]. exact (Hnone eq_refl).
Defined.

(** Scenario C: the span's tags win over the configured values. *)
Lemma env_version_fallback_chain_witness :
  let w := world_with (Some "prod") (Some "23.45.6") (Ok (Some span_staging)) in
  ∃ w', _w_makeRecord "version" "env" construct hello w = (Ok 2%positive, w') ∧
    getattr (heap w') 2%positive "dd.env" = Some (PyStr "prod-staging") ∧
    getattr (heap w') 2%positive "dd.version" = Some (PyStr "1.2.3").
Proof.
  intros w.
  apply (env_version_fallback_chain "version" "env" construct hello w 2%positive
           (constructed w) (Some span_staging)).
  - vm_compute. reflexivity.
  - vm_compute. eauto.
  - reflexivity.
Defined.


(** A span with a trace identifier and a zero span identifier. *)
Lemma identifiers_all_or_nothing_witness :
  let w := world_with None None (Ok (Some span_half_identified)) in
  ∃ w', _w_makeRecord "version" "env" construct hello w = (Ok 2%positive, w') ∧
    getattr (heap w') 2%positive "dd.trace_id" = Some (PyInt 0) ∧
    getattr (heap w') 2%positive "dd.span_id" = Some (PyInt 0).
Proof.
  intros w.
  destruct (identifiers_all_or_nothing "version" "env" construct hello w
              2%positive (constructed w) (Some span_half_identified))
    as (w' & t & s & Hrun & Ht & Hs & Hcase & _).
  - vm_compute. reflexivity.
  - vm_compute. eauto.
  - reflexivity.
  - exists w'. split; [exact Hrun|].
    rewrite decide_False in Hcase by (intros [_ Hne]; by apply Hne).
    destruct Hcase as [-> ->]. by split.
Defined.

(** Nothing configured and no span: both resolved values are [None]. *)
Lemma falsy_resolves_to_empty_witness :
  let w := world_with None None (Ok None) in
  ∃ w', _w_makeRecord "version" "env" construct hello w = (Ok 2%positive, w') ∧
    getattr (heap w') 2%positive "dd.version" = Some (PyStr "") ∧
    getattr (heap w') 2%positive "dd.env" = Some (PyStr "").
Proof.
  intros w.
  destruct (falsy_resolves_to_empty "version" "env" construct hello w
              2%positive (constructed w) None) as (w' & Hrun & Hversion & Henv).
  - vm_compute. reflexivity.
  - vm_compute. eauto.
  - reflexivity.
  - exists w'. split; [exact Hrun|]. split; [by apply Hversion|by apply Henv].
Defined.

(** C6 fails on the code: when the tracer's lookup raises, the hook raises
    the same exception and the record, although constructed, carries none of
    the four attributes. *)
Lemma lookup_failure_propagates :
  let w := world_with (Some "prod") (Some "23.45.6")
             (Raise (Exception "current_span failed")) in
  let out := _w_makeRecord "version" "env" construct hello w in
  current_span (tracer_in_use (ddtrace w)) = Raise (Exception "current_span failed") ∧
  out.1 = Raise (Exception "current_span failed") ∧
  getattr (heap out.2) 2%positive "msg" = Some (PyStr "Hello!") ∧
  getattr (heap out.2) 2%positive "dd.env" = None ∧
  getattr (heap out.2) 2%positive "dd.version" = None ∧
  getattr (heap out.2) 2%positive "dd.trace_id" = None ∧
  getattr (heap out.2) 2%positive "dd.span_id" = None.
Proof.
  vm_compute. repeat split; reflexivity.
Qed.

(** The same failing lookup, through the theorem. *)
Lemma lookup_none_defaults_raise_propagates_witness :
  let w := world_with (Some "prod") (Some "23.45.6")
             (Raise (Exception "current_span failed")) in
  ∃ w', _w_makeRecord "version" "env" construct hello w
          = (Raise (Exception "current_span failed"), w') ∧
        heap w' = heap (constructed w) ∧
        trace w' = trace (constructed w) ++ [EvCurrentSpan].
Proof.
  intros w.
  apply (lookup_none_defaults_raise_propagates "version" "env" construct hello w
           2%positive (constructed w)).
  - vm_compute. reflexivity.
  - vm_compute. eauto.
Defined.

(** [patch], [patch], then the cycle [patch], [unpatch], [patch]. *)
Lemma lifecycle_idempotent_witness :
  let logging := after "version" "env" [Patch; Patch] in
  patch "version" "env" (unpatch (patch "version" "env" logging))
  = patch "version" "env" logging ∧
  Logger_makeRecord
    (patch "version" "env" (unpatch (patch "version" "env" logging)))
  = FunctionWrapper Original (_w_makeRecord "version" "env").
Proof.
  intros logging.
  destruct (lifecycle_idempotent "version" "env" new_record [Patch; Patch])
    as (_ & _ & Hcycle & Hone & _).
  split; [exact Hcycle|exact Hone].
Defined.

(** A log call after [patch] then [unpatch]. *)
Lemma inactive_sets_nothing_witness :
  let w := world_with (Some "prod") (Some "23.45.6") (Ok (Some span_staging)) in
  ∃ res h1 w',
    new_record hello (heap w) = (res, h1) ∧
    Logger_makeRecord_call new_record (after "version" "env" [Patch; Unpatch]) hello w
      = (res, w') ∧
    heap w' = h1 ∧
    trace w' = trace w ++ [EvOriginal hello] ∧
    ∀ l k, getattr (heap w') l k = getattr h1 l k.
Proof.
  intros w.
  apply (inactive_sets_nothing "version" "env" new_record [Patch; Unpatch] hello w).
  left. reflexivity.
Defined.

(** Empty tags on the span, non-empty configuration. *)
Lemma key_presence_decides_witness :
  let w := world_with (Some "prod") (Some "23.45.6") (Ok (Some span_empty_tags)) in
  ∃ w', _w_makeRecord "version" "env" construct hello w = (Ok 2%positive, w') ∧
    getattr (heap w') 2%positive "dd.env" = Some (PyStr "") ∧
    getattr (heap w') 2%positive "dd.version" = Some (PyStr "").
Proof.
  intros w.
  destruct (key_presence_decides "version" "env" construct hello w
              2%positive (constructed w) span_empty_tags)
    as (w' & Hrun & Henv & Hversion).
  - vm_compute. reflexivity.
  - vm_compute. eauto.
  - reflexivity.
  - exists w'. split; [exact Hrun|].
    split; [by apply (Henv "")|by apply (Hversion "")].
Defined.

(** ** The further properties at concrete inputs *)

(** The override tracer knows a span; the default tracer answers nothing in
    one world and raises in the other. *)
Lemma override_shields_default_witness :
  let override := {| current_span := Ok (Some span_untagged) |} in
  let w := world_with_override override {| current_span := Ok None |} in
  let other := {| current_span := Raise (Exception "no context") |} in
  (_w_makeRecord "version" "env" (call_original new_record) hello w).1
    = (_w_makeRecord "version" "env" (call_original new_record) hello
         (with_default_tracer other w)).1 ∧
  heap (_w_makeRecord "version" "env" (call_original new_record) hello w).2
    = heap (_w_makeRecord "version" "env" (call_original new_record) hello
              (with_default_tracer other w)).2 ∧
  trace (_w_makeRecord "version" "env" (call_original new_record) hello w).2
    = trace (_w_makeRecord "version" "env" (call_original new_record) hello
               (with_default_tracer other w)).2.
Proof.
  intros override w other.
  apply (override_shields_default "version" "env" new_record hello w override other).
  reflexivity.
Defined.

(** Two runs that share the configured version and the version tag, and
    nothing else: other arguments, another record that already has a
    [dd.version], another environment, other identifiers, another tag. *)
Lemma fields_depend_on_own_inputs_witness :
  let w := world_with (Some "prod") (Some "23.45.6") (Ok (Some span_staging)) in
  let w' := world_with (Some "dev") (Some "23.45.6") (Ok (Some span_other_team)) in
  ∃ v v',
    _w_makeRecord "version" "env" construct hello w = (Ok 2%positive, v) ∧
    _w_makeRecord "version" "env" construct_with_extra goodbye w' = (Ok 2%positive, v') ∧
    getattr (heap v) 2%positive "dd.version" = getattr (heap v') 2%positive "dd.version".
Proof.
  intros w w'.
  destruct (fields_depend_on_own_inputs "version" "env"
              construct hello w 2%positive (constructed w) (Some span_staging)
              construct_with_extra goodbye w' 2%positive
              (construct_with_extra goodbye w').2 (Some span_other_team))
    as (v & v' & Hrun & Hrun' & Hversion & _).
  - vm_compute. reflexivity.
  - vm_compute. eauto.
  - reflexivity.
  - vm_compute. reflexivity.
  - vm_compute. eauto.
  - reflexivity.
  - exists v, v'. split; [exact Hrun|]. split; [exact Hrun'|].
    apply Hversion; reflexivity.
Defined.

Lemma one_lookup_four_writes_witness :
  let w := world_with (Some "prod") None (Ok None) in
  ∃ w' version env tid sid,
    _w_makeRecord "version" "env" construct hello w = (Ok 2%positive, w') ∧
    trace w' = trace (constructed w) ++
      [ EvCurrentSpan;
        EvSetattr 2%positive "dd.version" version;
        EvSetattr 2%positive "dd.env" env;
        EvSetattr 2%positive "dd.trace_id" tid;
        EvSetattr 2%positive "dd.span_id" sid ].
Proof.
  intros w.
  apply (one_lookup_four_writes "version" "env" construct hello w 2%positive
           (constructed w) None).
  - vm_compute. reflexivity.
  - reflexivity.
Defined.

Lemma stacked_hook_same_heap_witness :
  let w := world_with (Some "prod") None (Ok (Some span_staging)) in
  ∃ once twice,
    _w_makeRecord "version" "env" construct hello w = (Ok 2%positive, once) ∧
    _w_makeRecord "version" "env" (_w_makeRecord "version" "env" construct) hello w
      = (Ok 2%positive, twice) ∧
    heap twice = heap once ∧
    ddtrace twice = ddtrace once.
Proof.
  intros w.
  apply (stacked_hook_same_heap "version" "env" construct hello w 2%positive
           (constructed w) (Some span_staging)).
  - vm_compute. reflexivity.
  - reflexivity.
Defined.

Lemma half_identified_span_keeps_tags_witness :
  let sp := {| trace_id := 111; span_id := 0;
               meta := {[ "env" := "prod-staging"; "version" := "1.2.3" ]} |} in
  let w := world_with (Some "prod") None (Ok (Some sp)) in
  ∃ w', _w_makeRecord "version" "env" construct hello w = (Ok 2%positive, w') ∧
    getattr (heap w') 2%positive "dd.env" = Some (PyStr "prod-staging") ∧
    getattr (heap w') 2%positive "dd.version" = Some (PyStr "1.2.3") ∧
    getattr (heap w') 2%positive "dd.trace_id" = Some (PyInt 0) ∧
    getattr (heap w') 2%positive "dd.span_id" = Some (PyInt 0).
Proof.
  intros sp w.
  apply (half_identified_span_keeps_tags "version" "env" construct hello w
           2%positive (constructed w) sp "prod-staging" "1.2.3").
  - vm_compute. reflexivity.
  - vm_compute. eauto.
  - reflexivity.
  - right. reflexivity.
  - reflexivity.
  - reflexivity.
Defined.
